(** * R-L-C transmission line toolkit: the computation engine

    A shallow embedding of the formulas of [app_rlc_toolkit_pro.py]
    (resistance, inductance and capacitance tabs).

    Numbers.  Every widget of the script returns a Python [float], an
    IEEE 754 binary64 number.  The embedding uses Rocq's primitive
    binary64 floats: [+], [-], [*], [/] and [math.sqrt] are the correctly
    rounded operations of the processor, so rounding, underflow, overflow,
    infinities, NaN and signed zeros are those of the script.

    Exceptions.  [/] raises [ZeroDivisionError] on a zero divisor;
    [math.log] and [math.sqrt] raise [ValueError] outside their domain and
    [TypeError] on a complex argument; [**] raises [OverflowError] when its
    result overflows, and a negative float raised to the non-integer power
    [1/3] is a [complex].

    The C library.  [x ** y] and [math.log x] end in the platform's [pow]
    and [log], which are not part of the script and differ between
    platforms in the last bit.  They are parameters, [libm_pow] and
    [libm_log], of the inductance and capacitance tabs; the special cases
    that CPython decides before calling them are modelled.  The resistance
    tab calls neither.

    The script has no function boundaries: each tab is embedded as a
    function from the values of its input widgets to the variables it
    displays. *)

From Stdlib Require Import Floats ZArith PArith Lia Bool.

Set Warnings "-inexact-float".

Open Scope float_scope.

(** ** Python's exceptions as an error monad *)

Inductive PyError : Type :=
| ZeroDivisionError
| ValueError
| TypeError
| OverflowError.

Inductive py (A : Type) : Type :=
| Ok (a : A)
| Raise (e : PyError).

Arguments Ok {A} a.
Arguments Raise {A} e.

Definition bind {A B : Type} (m : py A) (k : A -> py B) : py B :=
  match m with
  | Ok a => k a
  | Raise e => Raise e
  end.

Notation "x <- m ;; k" := (bind m (fun x => k))
  (at level 61, m at next level, right associativity).

Definition returns {A : Type} (m : py A) : Prop := exists a, m = Ok a.
Definition raises {A : Type} (m : py A) : Prop := exists e, m = Raise e.

(** A Python number: the script only ever holds floats, except where a
    negative base meets the exponent [1/3].  Of a complex number only the
    fact that it is one matters: every later use raises. *)
Inductive pynum : Type :=
| PyFloat (x : float)
| PyComplex.

(** [x / y] on floats ([float_div]): a zero divisor of either sign
    raises. *)
Definition py_div (x y : float) : py float :=
  if y =? 0 then Raise ZeroDivisionError else Ok (x / y).

(** ** Constants *)

Definition math_pi : float := 3.141592653589793.
Definition MU_0 : float := 4 * math_pi * 1e-7.
Definition EPSILON_0 : float := 8.854e-12.

Inductive Material : Type := Copper | Aluminum.

Definition TEMP_CONST (m : Material) : float :=
  match m with
  | Copper => 234.5
  | Aluminum => 228.1
  end.

(** ** Resistance tab *)

Record ResistanceResult : Type := mkResistance {
  rho2 : float;
  R_per_km : float;
  R_total : float
}.

(** Line 72, for an arbitrary temperature constant. *)
Definition corrected_resistivity (rho1 temp1 temp2 temp_const : float)
  : py float :=
  q <- py_div (temp2 + temp_const) (temp1 + temp_const) ;;
  Ok (rho1 * q).

(** Lines 67 and 71-74. *)
Definition computeResistance
    (material : Material) (rho1 area_mm2 length_km temp1 temp2 : float)
  : py ResistanceResult :=
  let temp_const := TEMP_CONST material in
  let area_m2 := area_mm2 * 1e-6 in
  r2 <- corrected_resistivity rho1 temp1 temp2 temp_const ;;
  q <- py_div r2 area_m2 ;;
  let per_km := q * 1000 in
  Ok (mkResistance r2 per_km (per_km * length_km)).

(** ** Geometry, inductance and capacitance tabs, over the C library *)

Definition Point : Type := (float * float)%type.

(** The radio button together with the widgets of the branch it selects. *)
Inductive SystemType : Type :=
| SinglePhase (spacing : float)
| ThreePhase (pA pB pC : Point).

Record PhaseSpacings : Type := mkSpacings {
  Dab : float;
  Dbc : float;
  Dca : float
}.

Record InductanceResult : Type := mkInductance {
  gmr : float;
  L_GMD : float;
  L_per_m : float;
  L_per_km : float;
  L_total : float
}.

Record CapacitanceResult : Type := mkCapacitance {
  C_GMD : float;
  D_eq : float;
  C_per_m : float;
  C_per_km : float;
  C_total : float
}.

(** The exponent of lines 128, 186 and 192: the float [1/3]. *)
Definition one_third : float := 1 / 3.

(** Line 105.  The widget of [user_gmr] has [min_value=0.0]. *)
Definition resolve_gmr (r_m user_gmr : float) : float :=
  if user_gmr =? 0 then 0.7788 * r_m else user_gmr.

(** A [math] function applied to a Python number: a complex argument is a
    [TypeError]. *)
Definition as_float (v : pynum) : py float :=
  match v with
  | PyFloat x => Ok x
  | PyComplex => Raise TypeError
  end.

(** Arithmetic on Python numbers, as far as the script uses it. *)
Definition num_mul (v w : pynum) : pynum :=
  match v, w with
  | PyFloat x, PyFloat y => PyFloat (x * y)
  | _, _ => PyComplex
  end.

Definition num_div (v : pynum) (y : float) : py pynum :=
  if y =? 0 then Raise ZeroDivisionError
  else match v with
       | PyFloat x => Ok (PyFloat (x / y))
       | PyComplex => Ok PyComplex
       end.

(** [math_1] of CPython's [mathmodule.c], with [can_overflow = 0]: a NaN
    result of a non-NaN argument, and an infinite result of a finite
    argument, are a [ValueError]. *)
Definition math_1 (func : float -> float) (x : float) : py float :=
  let r := func x in
  if is_nan r && negb (is_nan x) then Raise ValueError
  else if is_infinity r && is_finite x then Raise ValueError
  else Ok r.

(** [math.sqrt(x)]: the correctly rounded square root under [math_1]. *)
Definition math_sqrt (x : float) : py float := math_1 sqrt x.

Definition num_sqrt (v : pynum) : py float :=
  x <- as_float v ;; math_sqrt x.

Section Libm.

(** The platform's [pow] and [log]. *)
Variable libm_pow : float -> float -> float.
Variable libm_log : float -> float.

(** The end of [float_pow]: [ix = pow(iv, iw)], then an infinite result is
    an [OverflowError]. *)
Definition checked_pow (iv iw : float) : py float :=
  let ix := libm_pow iv iw in
  if is_infinity ix then Raise OverflowError else Ok ix.

(** [iv ** 2], that is [float_pow] at the even integer exponent [2.0]:
    NaN stays NaN, an infinity gives [+inf], a zero gives [0.0], a negative
    base is replaced by its opposite, [1.0] gives [1.0], and every other
    base goes to [pow]. *)
Definition pow_2 (iv : float) : py float :=
  if is_nan iv then Ok iv
  else if is_infinity iv then Ok (abs iv)
  else if iv =? 0 then Ok 0
  else let iv' := if iv <? 0 then - iv else iv in
       if iv' =? 1 then Ok 1 else checked_pow iv' 2.

(** [iv ** (1/3)], that is [float_pow] at the positive non-integer exponent
    [one_third]: as above, except that a negative finite base gives a
    complex number. *)
Definition pow_third (iv : float) : py pynum :=
  if is_nan iv then Ok (PyFloat iv)
  else if is_infinity iv then Ok (PyFloat (abs iv))
  else if iv =? 0 then Ok (PyFloat 0)
  else if iv <? 0 then Ok PyComplex
  else if iv =? 1 then Ok (PyFloat 1)
  else x <- checked_pow iv one_third ;; Ok (PyFloat x).

(** [m_log] of [mathmodule.c]: [log] on the positive finite numbers, a pole
    at zero, NaN below zero; NaN and [+inf] are returned unchanged. *)
Definition m_log (x : float) : float :=
  if is_finite x then
    if 0 <? x then libm_log x
    else if x =? 0 then neg_infinity else nan
  else if is_nan x then x
  else if 0 <? x then x else nan.

(** [math.log(x)] with one float argument. *)
Definition math_log (x : float) : py float := math_1 m_log x.

Definition num_log (v : pynum) : py float :=
  x <- as_float v ;; math_log x.

(** [math.sqrt((x1 - x2)**2 + (y1 - y2)**2)], lines 125-127 and 183-185. *)
Definition distance (p q : Point) : py float :=
  dx2 <- pow_2 (fst p - fst q) ;;
  dy2 <- pow_2 (snd p - snd q) ;;
  math_sqrt (dx2 + dy2).

Definition pairwiseDistances (pA pB pC : Point) : py PhaseSpacings :=
  ab <- distance pA pB ;;
  bc <- distance pB pC ;;
  ca <- distance pC pA ;;
  Ok (mkSpacings ab bc ca).

(** Lines 125-128: [GMD = (Dab * Dbc * Dca)**(1/3)]. *)
Definition GMD3 (pA pB pC : Point) : py pynum :=
  d <- pairwiseDistances pA pB pC ;;
  pow_third (Dab d * Dbc d * Dca d).

(** *** Inductance tab *)

(** Lines 111-128. *)
Definition inductance_GMD (sys : SystemType) : py pynum :=
  match sys with
  | SinglePhase spacing_m => Ok (PyFloat spacing_m)
  | ThreePhase pA pB pC => GMD3 pA pB pC
  end.

(** Lines 101-135.  The divisions by the literals [1000] and [2 * math.pi]
    cannot raise. *)
Definition computeInductance
    (sys : SystemType) (radius_mm user_gmr length_km : float)
  : py InductanceResult :=
  let r_m := radius_mm / 1000 in
  let g := resolve_gmr r_m user_gmr in
  let length_m := length_km * 1000 in
  GMD <- inductance_GMD sys ;;
  q <- num_div GMD g ;;
  l <- num_log q ;;
  let per_m := (MU_0 / (2 * math_pi)) * l in
  d <- as_float GMD ;;
  Ok (mkInductance g d per_m (per_m * 1000) (per_m * length_m)).

(** *** Capacitance tab *)

(** Lines 168-193: the pair [(GMD, D_eq)]. *)
Definition capacitance_geometry (sys : SystemType) (height_m : float)
  : py (pynum * float) :=
  match sys with
  | SinglePhase spacing_c =>
      s2 <- pow_2 spacing_c ;;
      h2 <- pow_2 (2 * height_m) ;;
      d <- math_sqrt (s2 + h2) ;;
      Ok (PyFloat spacing_c, d)
  | ThreePhase pA pB pC =>
      GMD <- GMD3 pA pB pC ;;
      let DpA := 2 * snd pA in
      let DpB := 2 * snd pB in
      let DpC := 2 * snd pC in
      Dp <- pow_third (DpA * DpB * DpC) ;;
      d <- num_sqrt (num_mul GMD Dp) ;;
      Ok (GMD, d)
  end.

(** Lines 162-200. *)
Definition computeCapacitance
    (sys : SystemType) (radius_mm_c height_m length_km_c : float)
  : py CapacitanceResult :=
  let r_m_c := radius_mm_c / 1000 in
  let length_m_c := length_km_c * 1000 in
  geo <- capacitance_geometry sys height_m ;;
  q <- py_div (snd geo) r_m_c ;;
  l <- math_log q ;;
  per_m <- py_div (2 * math_pi * EPSILON_0) l ;;
  g <- as_float (fst geo) ;;
  Ok (mkCapacitance g (snd geo) per_m (per_m * 1000) (per_m * length_m_c)).

(** * Binary64 facts used below

    Each is read off the specification of the primitive floats
    ([Prim2SF] and the [SF] operations). *)

Lemma SFeqb_finite_refl (s : bool) (m : positive) (e : Z) :
  SFeqb (S754_finite s m e) (S754_finite s m e) = true.
Proof.
  unfold SFeqb. cbn [SFcompare].
  change (Pos.compare_cont Eq m m) with (Pos.compare m m).
  rewrite Z.compare_refl, Pos.compare_refl. destruct s; reflexivity.
Qed.

Lemma is_nan_SF (x : float) :
  is_nan x = match Prim2SF x with S754_nan => true | _ => false end.
Proof.
  unfold is_nan. rewrite FloatAxioms.eqb_spec.
  destruct (Prim2SF x) as [[] | [] | | s m e]; try reflexivity.
  rewrite SFeqb_finite_refl. reflexivity.
Qed.

Lemma is_infinity_SF (x : float) :
  is_infinity x = match Prim2SF x with S754_infinity _ => true | _ => false end.
Proof.
  unfold is_infinity. rewrite FloatAxioms.eqb_spec, abs_spec.
  change (Prim2SF infinity) with (S754_infinity false).
  destruct (Prim2SF x) as [[] | [] | | [] m e]; reflexivity.
Qed.

Lemma is_finite_SF (x : float) :
  is_finite x = match Prim2SF x with
                | S754_zero _ | S754_finite _ _ _ => true
                | _ => false
                end.
Proof.
  unfold is_finite. rewrite is_nan_SF, is_infinity_SF.
  destruct (Prim2SF x); reflexivity.
Qed.

Lemma eqb_zero_SF (x : float) :
  (x =? 0) = match Prim2SF x with S754_zero _ => true | _ => false end.
Proof.
  rewrite FloatAxioms.eqb_spec. change (Prim2SF 0) with (S754_zero false).
  destruct (Prim2SF x) as [[] | [] | | [] m e]; reflexivity.
Qed.

Lemma ltb_zero_SF (x : float) :
  (x <? 0) = match Prim2SF x with
             | S754_finite true _ _ | S754_infinity true => true
             | _ => false
             end.
Proof.
  rewrite FloatAxioms.ltb_spec. change (Prim2SF 0) with (S754_zero false).
  destruct (Prim2SF x) as [[] | [] | | [] m e]; reflexivity.
Qed.

Lemma zero_ltb_SF (x : float) :
  (0 <? x) = match Prim2SF x with
             | S754_finite false _ _ | S754_infinity false => true
             | _ => false
             end.
Proof.
  rewrite FloatAxioms.ltb_spec. change (Prim2SF 0) with (S754_zero false).
  destruct (Prim2SF x) as [[] | [] | | [] m e]; reflexivity.
Qed.

Lemma leb_zero_SF (x : float) :
  (x <=? 0) = match Prim2SF x with
              | S754_zero _ | S754_finite true _ _ | S754_infinity true => true
              | _ => false
              end.
Proof.
  rewrite FloatAxioms.leb_spec. change (Prim2SF 0) with (S754_zero false).
  destruct (Prim2SF x) as [[] | [] | | [] m e]; reflexivity.
Qed.

(** A float that compares equal to zero is one of the two zeros. *)
Lemma eqb_zero_cases (x : float) :
  (x =? 0) = true -> x = 0 \/ x = neg_zero.
Proof.
  rewrite eqb_zero_SF. intros H.
  rewrite <- (SF2Prim_Prim2SF x).
  destruct (Prim2SF x) as [[] | | |]; try discriminate H.
  - right. reflexivity.
  - left. reflexivity.
Qed.

Lemma positive_not_zero (x : float) : (0 <? x) = true -> (x =? 0) = false.
Proof.
  rewrite zero_ltb_SF, eqb_zero_SF.
  destruct (Prim2SF x) as [[] | [] | | [] m e]; intros H;
    try discriminate H; reflexivity.
Qed.

(** A finite float that is not zero has a mantissa and an exponent. *)
Lemma finite_nonzero_SF (x : float) :
  is_finite x = true -> (x =? 0) = false ->
  exists s m e, Prim2SF x = S754_finite s m e.
Proof.
  rewrite is_finite_SF, eqb_zero_SF.
  destruct (Prim2SF x) as [s | s | | s m e]; intros Hf Hz;
    try discriminate Hf; try discriminate Hz.
  exists s, m, e. reflexivity.
Qed.

(** Multiplication is commutative. *)
Lemma SFmul_comm (a b : spec_float) : SF64mul a b = SF64mul b a.
Proof.
  unfold SF64mul.
  destruct a as [sa | sa | | sa ma ea], b as [sb | sb | | sb mb eb];
    cbn [SFmul]; rewrite ?(xorb_comm sa sb); try reflexivity.
  rewrite (Pos.mul_comm ma mb), (Z.add_comm ea eb). reflexivity.
Qed.

Lemma mul_comm (x y : float) : x * y = y * x.
Proof. apply Prim2SF_inj. rewrite !mul_spec. apply SFmul_comm. Qed.

(** A finite non-zero float divided by itself is exactly [1.0]. *)
Lemma SFdiv_self (s : bool) (m : positive) (e : Z) :
  SF64div (S754_finite s m e) (S754_finite s m e) = Prim2SF 1.
Proof.
  unfold SF64div. cbn [SFdiv]. unfold SFdiv_core_binary.
  replace (Zdigits2 (Z.pos m) + e - (Zdigits2 (Z.pos m) + e))%Z with 0%Z by lia.
  replace (e - e)%Z with 0%Z by lia.
  change (Z.min (fexp prec emax 0) 0) with (-53)%Z.
  change (0 - -53)%Z with 53%Z. cbv iota.
  assert (E : Z.div_eucl (Z.shiftl (Z.pos m) 53) (Z.pos m)
              = (9007199254740992%Z, 0%Z)).
  { rewrite Z.shiftl_mul_pow2 by lia.
    pose proof (Z.div_eucl_eq (Z.pos m * 2 ^ 53) (Z.pos m)) as H.
    pose proof (Z.mod_pos_bound (Z.pos m * 2 ^ 53) (Z.pos m)) as Hb.
    unfold Z.modulo, Z.div in *.
    destruct (Z.div_eucl (Z.pos m * 2 ^ 53) (Z.pos m)) as [q r].
    specialize (H ltac:(lia)). specialize (Hb ltac:(lia)).
    assert (q = 2 ^ 53)%Z by nia. assert (r = 0)%Z by nia.
    subst. reflexivity. }
  rewrite E, xorb_nilpotent.
  assert (N : new_location (Z.pos m) 0 = loc_Exact).
  { unfold new_location, new_location_even, new_location_odd.
    destruct (Z.even (Z.pos m)); reflexivity. }
  rewrite N. reflexivity.
Qed.

Lemma div_self (x : float) :
  is_finite x = true -> (x =? 0) = false -> x / x = 1.
Proof.
  intros Hf Hz. destruct (finite_nonzero_SF x Hf Hz) as (s & m & e & Hx).
  apply Prim2SF_inj. rewrite div_spec, Hx. apply SFdiv_self.
Qed.





(** Rounding does not look at the sign. *)
Lemma SFabs_binary_round_aux (s s' : bool) (m e : Z) (l : location) :
  SFabs (binary_round_aux prec emax s m e l)
  = SFabs (binary_round_aux prec emax s' m e l).
Proof.
  unfold binary_round_aux.
  destruct (shr_fexp prec emax m e l) as [mrs e1].
  destruct (shr_fexp prec emax _ e1 loc_Exact) as [mrs2 e2].
  destruct (shr_m mrs2); try reflexivity.
  destruct (e2 <=? emax - prec)%Z; reflexivity.
Qed.

Lemma SFabs_binary_normalize_opp (m e : Z) :
  SFabs (binary_normalize prec emax m e false)
  = SFabs (binary_normalize prec emax (- m) e false).
Proof.
  destruct m as [| p | p]; cbn [binary_normalize Z.opp]; try reflexivity;
    unfold binary_round;
    destruct (shl_align p e _) as [mz ez]; apply SFabs_binary_round_aux.
Qed.

(** [x - y] and [y - x] differ at most in sign. *)
Lemma SFabs_sub_swap (a b : spec_float) :
  SFabs (SF64sub a b) = SFabs (SF64sub b a).
Proof.
  unfold SF64sub.
  destruct a as [sa | sa | | sa ma ea], b as [sb | sb | | sb mb eb];
    try (destruct sa); try (destruct sb); try reflexivity;
    cbn [SFsub]; rewrite (Z.min_comm eb ea);
    match goal with
    | |- SFabs (binary_normalize _ _ ?x _ _)
         = SFabs (binary_normalize _ _ ?y _ _) =>
        replace y with (- x)%Z by (cbn [cond_Zopp]; lia)
    end;
    apply SFabs_binary_normalize_opp.
Qed.

Lemma abs_sub_swap (x y : float) : abs (x - y) = abs (y - x).
Proof.
  apply Prim2SF_inj. rewrite !abs_spec, !sub_spec. apply SFabs_sub_swap.
Qed.

(** Negating a factor changes at most the sign of a product. *)
Lemma SFabs_mul_opp_r (a b : spec_float) :
  SFabs (SF64mul a (SFopp b)) = SFabs (SF64mul a b).
Proof.
  unfold SF64mul.
  destruct a as [sa | sa | | sa ma ea], b as [sb | sb | | sb mb eb];
    cbn [SFmul SFopp SFabs]; try reflexivity.
  apply SFabs_binary_round_aux.
Qed.

Lemma abs_mul_opp_r (x y : float) : abs (x * - y) = abs (x * y).
Proof.
  apply Prim2SF_inj. rewrite !abs_spec, !mul_spec, opp_spec.
  apply SFabs_mul_opp_r.
Qed.

(** ** Equations of the primitive operations *)

Lemma Ok_not_raises {A : Type} (m : py A) (a : A) : m = Ok a -> ~ raises m.
Proof. intros -> [e He]. discriminate He. Qed.


Lemma resolve_gmr_user (r_m user_gmr : float) :
  (user_gmr =? 0) = false -> resolve_gmr r_m user_gmr = user_gmr.
Proof. intros H. unfold resolve_gmr. rewrite H. reflexivity. Qed.

(** A zero area gives a zero area in square metres. *)
Lemma area_m2_zero (area_mm2 : float) :
  (area_mm2 =? 0) = true -> (area_mm2 * 1e-6 =? 0) = true.
Proof.
  intros H. destruct (eqb_zero_cases _ H) as [-> | ->]; reflexivity.
Qed.

(** * Resistance tab *)


(** The resistance tab as a decision tree over its two divisors. *)
Lemma computeResistance_eval
    (m : Material) (rho1 area_mm2 length_km temp1 temp2 : float) :
  computeResistance m rho1 area_mm2 length_km temp1 temp2
  = if temp1 + TEMP_CONST m =? 0 then Raise ZeroDivisionError
    else if area_mm2 * 1e-6 =? 0 then Raise ZeroDivisionError
    else let r2 := rho1 * ((temp2 + TEMP_CONST m) / (temp1 + TEMP_CONST m)) in
         let per_km := r2 / (area_mm2 * 1e-6) * 1000 in
         Ok (mkResistance r2 per_km (per_km * length_km)).
Proof.
  unfold computeResistance, corrected_resistivity, py_div.
  destruct (temp1 + TEMP_CONST m =? 0); [reflexivity|]. cbn [bind].
  destruct (area_mm2 * 1e-6 =? 0); reflexivity.
Qed.




(** C2 (as amended).  The resistance tab fails, with Python's
    [ZeroDivisionError] and no input error of its own, for every input
    whose area is zero and for every input whose [T1 + theta] is zero.
    (A negative area is not rejected, see the counterexample.) *)
Theorem computeResistance_zero_division
    (m : Material) (rho1 area_mm2 length_km temp1 temp2 : float) :
  let out := computeResistance m rho1 area_mm2 length_km temp1 temp2 in
  ((area_mm2 =? 0) = true -> out = Raise ZeroDivisionError)
  /\ ((temp1 + TEMP_CONST m =? 0) = true -> out = Raise ZeroDivisionError).
Proof.
  intros out. unfold out. rewrite computeResistance_eval. split.
  - intros HA. apply area_m2_zero in HA. rewrite HA.
    destruct (temp1 + TEMP_CONST m =? 0); reflexivity.
  - intros HT. rewrite HT. reflexivity.
Qed.

(** C2, counterexample.  With a negative area of -300 mm2 (and the default
    values of the other widgets) the tab returns a result, whose
    resistances are negative. *)
Lemma computeResistance_negative_area_returns :
  (-300 <=? 0) = true
  /\ computeResistance Copper 1.724e-8 (-300) 10 20 50
     = Ok (mkResistance 1.927222003929273e-08 (-0.064240733464309099)
                        (-0.64240733464309102))
  /\ ~ raises (computeResistance Copper 1.724e-8 (-300) 10 20 50).
Proof.
  assert (E : computeResistance Copper 1.724e-8 (-300) 10 20 50
              = Ok (mkResistance 1.927222003929273e-08 (-0.064240733464309099)
                                 (-0.64240733464309102)))
    by reflexivity.
  split; [reflexivity|]. split; [exact E | exact (Ok_not_raises _ _ E)].
Qed.

(** C6.  Every result the resistance tab returns has a total resistance
    equal to its resistance per km times the length in km (one binary64
    product, line 74). *)
Theorem R_total_is_per_km_times_length
    (m : Material) (rho1 area_mm2 length_km temp1 temp2 : float)
    (res : ResistanceResult) :
  computeResistance m rho1 area_mm2 length_km temp1 temp2 = Ok res ->
  R_total res = R_per_km res * length_km.
Proof.
  rewrite computeResistance_eval.
  destruct (temp1 + TEMP_CONST m =? 0); [discriminate|].
  destruct (area_mm2 * 1e-6 =? 0); [discriminate|].
  cbv zeta. intros H. injection H as <-. reflexivity.
Qed.

Lemma R_total_is_per_km_times_length_witness :
  exists res,
    computeResistance Copper 1.724e-8 300 10 20 50 = Ok res
    /\ R_total res = R_per_km res * 10.
Proof.
  eexists. split.
  - vm_compute. reflexivity.
  - apply (R_total_is_per_km_times_length Copper 1.724e-8 300 10 20 50).
    vm_compute. reflexivity.
Defined.

(** * The [math] functions and the powers *)

Lemma is_finite_split (x : float) :
  is_finite x = true -> is_nan x = false /\ is_infinity x = false.
Proof.
  unfold is_finite. intros H. apply negb_true_iff, orb_false_iff in H. exact H.
Qed.

(** [math.log] of a float that is not above zero is a [ValueError]. *)
Lemma math_log_nonpos (x : float) :
  (x <=? 0) = true -> math_log x = Raise ValueError.
Proof.
  unfold math_log, math_1, m_log.
  rewrite leb_zero_SF, is_finite_SF, zero_ltb_SF, eqb_zero_SF, (is_nan_SF x).
  destruct (Prim2SF x) as [[] | [] | | [] m e]; intros H;
    try discriminate H; reflexivity.
Qed.

(** [math.log] of a positive finite float is the C library's value, when
    that is finite. *)
Lemma math_log_pos (x : float) :
  is_finite x = true -> (0 <? x) = true -> is_finite (libm_log x) = true ->
  math_log x = Ok (libm_log x).
Proof.
  intros Hf Hp Hl. unfold math_log, math_1, m_log. rewrite Hf, Hp.
  destruct (is_finite_split _ Hl) as [-> ->]. reflexivity.
Qed.

(** What a returned logarithm tells about its argument. *)
Lemma math_log_returns (x l : float) :
  math_log x = Ok l ->
  (x <=? 0) = false
  /\ (is_finite x = true -> (0 <? x) = true /\ l = libm_log x).
Proof.
  intros H. split.
  - destruct (x <=? 0) eqn:E; [|reflexivity].
    rewrite (math_log_nonpos _ E) in H. discriminate H.
  - intros Hf. unfold math_log, math_1, m_log in H. rewrite Hf in H.
    destruct (0 <? x) eqn:Hp.
    + split; [reflexivity|].
      destruct (is_nan (libm_log x) && negb (is_nan x)); [discriminate H|].
      destruct (is_infinity (libm_log x) && true); [discriminate H|].
      injection H as <-. reflexivity.
    + exfalso. destruct (is_finite_split _ Hf) as [Hn _].
      rewrite Hn in H. destruct (x =? 0); discriminate H.
Qed.

(** The square depends on its argument only up to sign. *)
Lemma pow_2_abs_eq (x y : float) : abs x = abs y -> pow_2 x = pow_2 y.
Proof.
  intros Habs.
  assert (HSF : SFabs (Prim2SF x) = SFabs (Prim2SF y))
    by (rewrite <- !abs_spec, Habs; reflexivity).
  assert (Hx : is_nan x = false -> is_infinity x = false -> (x =? 0) = false ->
               (if x <? 0 then - x else x) = abs x).
  { rewrite is_nan_SF, is_infinity_SF, eqb_zero_SF, ltb_zero_SF.
    intros H1 H2 H3. apply Prim2SF_inj.
    destruct (Prim2SF x) as [s | s | | [] m e] eqn:E;
      try discriminate H1; try discriminate H2; try discriminate H3;
      rewrite ?opp_spec, abs_spec, E; reflexivity. }
  assert (Hy : is_nan y = false -> is_infinity y = false -> (y =? 0) = false ->
               (if y <? 0 then - y else y) = abs y).
  { rewrite is_nan_SF, is_infinity_SF, eqb_zero_SF, ltb_zero_SF.
    intros H1 H2 H3. apply Prim2SF_inj.
    destruct (Prim2SF y) as [s | s | | [] m e] eqn:E;
      try discriminate H1; try discriminate H2; try discriminate H3;
      rewrite ?opp_spec, abs_spec, E; reflexivity. }
  assert (Hnan : is_nan x = true -> x = y).
  { rewrite is_nan_SF. intros H. apply Prim2SF_inj.
    destruct (Prim2SF x) as [s | s | | s m e]; try discriminate H.
    destruct (Prim2SF y) as [s' | s' | | s' m' e']; try discriminate HSF.
    reflexivity. }
  assert (Htests : is_nan x = is_nan y /\ is_infinity x = is_infinity y
                   /\ (x =? 0) = (y =? 0)).
  { rewrite !is_nan_SF, !is_infinity_SF, !eqb_zero_SF.
    destruct (Prim2SF x) as [s | s | | s m e];
      destruct (Prim2SF y) as [s' | s' | | s' m' e'];
      try discriminate HSF; auto. }
  destruct Htests as (Tn & Ti & Tz).
  unfold pow_2. rewrite <- Tn, <- Ti, <- Tz.
  destruct (is_nan x) eqn:En; [rewrite (Hnan eq_refl); reflexivity|].
  destruct (is_infinity x) eqn:Ei; [rewrite Habs; reflexivity|].
  destruct (x =? 0) eqn:Ez; [reflexivity|].
  cbv zeta. rewrite (Hx eq_refl eq_refl eq_refl).
  rewrite Hy by (symmetry; assumption).
  rewrite Habs. reflexivity.
Qed.

(** * Geometry *)

(** The distance of two positions does not depend on their order, bit for
    bit and exception for exception. *)
Lemma distance_sym (p q : Point) : distance p q = distance q p.
Proof.
  unfold distance.
  rewrite (pow_2_abs_eq (fst p - fst q) (fst q - fst p)) by apply abs_sub_swap.
  rewrite (pow_2_abs_eq (snd p - snd q) (snd q - snd p)) by apply abs_sub_swap.
  reflexivity.
Qed.

Lemma pairwiseDistances_inv (pA pB pC : Point) (d : PhaseSpacings) :
  pairwiseDistances pA pB pC = Ok d ->
  distance pA pB = Ok (Dab d) /\ distance pB pC = Ok (Dbc d)
  /\ distance pC pA = Ok (Dca d).
Proof.
  unfold pairwiseDistances.
  destruct (distance pA pB) as [ab | e]; [|discriminate].
  destruct (distance pB pC) as [bc | e]; [|discriminate].
  destruct (distance pC pA) as [ca | e]; [|discriminate].
  cbn [bind]. intros H. injection H as <-. auto.
Qed.

(** * Inductance tab *)

(** The inductance tab after the geometry. *)
Lemma computeInductance_eval
    (sys : SystemType) (radius_mm user_gmr length_km G : float) :
  inductance_GMD sys = Ok (PyFloat G) ->
  computeInductance sys radius_mm user_gmr length_km
  = let g := resolve_gmr (radius_mm / 1000) user_gmr in
    if g =? 0 then Raise ZeroDivisionError
    else l <- math_log (G / g) ;;
         let per_m := MU_0 / (2 * math_pi) * l in
         Ok (mkInductance g G per_m (per_m * 1000)
                          (per_m * (length_km * 1000))).
Proof.
  intros HG. unfold computeInductance. rewrite HG. cbv zeta. cbn [bind].
  unfold num_div.
  destruct (resolve_gmr (radius_mm / 1000) user_gmr =? 0); [reflexivity|].
  cbn [bind]. unfold num_log. cbn [as_float bind].
  destruct (math_log _); reflexivity.
Qed.

(** A zero GMD over a GMR that is neither zero nor NaN is a zero
    quotient. *)
Lemma zero_quotient (G g : float) :
  (G =? 0) = true -> (g =? 0) = false -> is_nan g = false ->
  (G / g <=? 0) = true.
Proof.
  rewrite leb_zero_SF, div_spec, !eqb_zero_SF, is_nan_SF. unfold SF64div.
  destruct (Prim2SF G) as [sG | sG | | sG mG eG]; intros H1; try discriminate H1.
  destruct (Prim2SF g) as [sg | sg | | sg mg eg]; intros H2 H3;
    try discriminate H2; try discriminate H3; reflexivity.
Qed.

(** C3 (as amended).  With [g] the resolved GMR and [G] the GMD, both as
    the script computes them, the inductance tab fails with
    [ZeroDivisionError] when [g] is zero, and with [ValueError] when [g]
    is not zero and the binary64 quotient [G / g] is zero or negative,
    which covers a zero GMD.  It does not fail for [G = g]: the quotient
    is then exactly [1.0], and with a C library whose [log 1.0] is [0.0]
    the inductances per metre and per km returned are [0.0]. *)
Theorem computeInductance_failures
    (sys : SystemType) (radius_mm user_gmr length_km G : float) :
  inductance_GMD sys = Ok (PyFloat G) ->
  let g := resolve_gmr (radius_mm / 1000) user_gmr in
  let out := computeInductance sys radius_mm user_gmr length_km in
  ((g =? 0) = true -> out = Raise ZeroDivisionError)
  /\ ((g =? 0) = false -> (G / g <=? 0) = true -> out = Raise ValueError)
  /\ ((g =? 0) = false -> is_nan g = false -> (G =? 0) = true ->
      out = Raise ValueError)
  /\ (G = g -> is_finite g = true -> (g =? 0) = false -> libm_log 1 = 0 ->
      out = Ok (mkInductance g G 0 0 (0 * (length_km * 1000)))).
Proof.
  intros HG g out. unfold out.
  rewrite (computeInductance_eval _ _ _ _ _ HG). cbv zeta. fold g.
  split; [|split; [|split]].
  - intros ->. reflexivity.
  - intros -> Hq. rewrite (math_log_nonpos _ Hq). reflexivity.
  - intros Hg Hn HG0. rewrite Hg.
    rewrite (math_log_nonpos _ (zero_quotient _ _ HG0 Hg Hn)). reflexivity.
  - intros -> Hf Hg Hlog. rewrite Hg, (div_self _ Hf Hg).
    rewrite math_log_pos by (try reflexivity; rewrite Hlog; reflexivity).
    cbn [bind]. rewrite Hlog. reflexivity.
Qed.

(** C5 (as amended).  Entering as GMR the binary64 product
    [0.7788 * (radius / 1000)] that line 105 itself computes gives, for
    every radius and geometry, the same outcome as entering the sentinel
    0.  (A GMR that is only the decimal value of that product need not be
    this float, see the counterexample.) *)
Theorem gmr_auto_same_as_explicit
    (sys : SystemType) (radius_mm length_km : float) :
  computeInductance sys radius_mm (0.7788 * (radius_mm / 1000)) length_km
  = computeInductance sys radius_mm 0 length_km.
Proof.
  unfold computeInductance. cbv zeta.
  assert (E : resolve_gmr (radius_mm / 1000) (0.7788 * (radius_mm / 1000))
              = resolve_gmr (radius_mm / 1000) 0).
  { unfold resolve_gmr.
    destruct (0.7788 * (radius_mm / 1000) =? 0); reflexivity. }
  rewrite E. reflexivity.
Qed.

(** C10.  When the caller supplies a GMR above zero the radius widget has
    no influence: two runs of the inductance tab that differ only in the
    radius have the same outcome. *)
Theorem inductance_independent_of_radius
    (sys : SystemType) (radius_mm radius_mm' user_gmr length_km : float) :
  (0 <? user_gmr) = true ->
  computeInductance sys radius_mm user_gmr length_km
  = computeInductance sys radius_mm' user_gmr length_km.
Proof.
  intros Hg. pose proof (positive_not_zero _ Hg) as Hne.
  unfold computeInductance. cbv zeta.
  rewrite !(resolve_gmr_user _ _ Hne). reflexivity.
Qed.

(** C9 (as amended).  Exchanging the labels of the phases A and C, which
    keeps the factors [Dab] and [Dbc] of line 128 together, leaves the
    three distances, the GMD and the whole outcome of the inductance tab
    unchanged, bit for bit.  (Other relabellings change the order of the
    binary64 product, see the counterexample.) *)
Theorem GMD3_swap_invariant (pA pB pC : Point) (d : PhaseSpacings) :
  pairwiseDistances pA pB pC = Ok d ->
  pairwiseDistances pC pB pA = Ok (mkSpacings (Dbc d) (Dab d) (Dca d))
  /\ GMD3 pC pB pA = GMD3 pA pB pC
  /\ forall radius_mm user_gmr length_km,
       computeInductance (ThreePhase pC pB pA) radius_mm user_gmr length_km
       = computeInductance (ThreePhase pA pB pC) radius_mm user_gmr length_km.
Proof.
  intros Hd. destruct (pairwiseDistances_inv _ _ _ _ Hd) as (Hab & Hbc & Hca).
  assert (Hd' : pairwiseDistances pC pB pA
                = Ok (mkSpacings (Dbc d) (Dab d) (Dca d))).
  { unfold pairwiseDistances.
    rewrite (distance_sym pC pB), Hbc, (distance_sym pB pA), Hab,
            (distance_sym pA pC), Hca.
    reflexivity. }
  assert (HG : GMD3 pC pB pA = GMD3 pA pB pC).
  { unfold GMD3. rewrite Hd, Hd'. cbn [bind Dab Dbc Dca].
    rewrite (mul_comm (Dbc d) (Dab d)). reflexivity. }
  split; [exact Hd'|]. split; [exact HG|].
  intros radius_mm user_gmr length_km.
  unfold computeInductance. cbn [inductance_GMD]. rewrite HG. reflexivity.
Qed.

(** * Signs of square roots and products *)


(** Rounding a magnitude with the positive sign gives nothing below
    zero. *)
Lemma round_aux_not_neg (m e : Z) (l : location) (x : float) :
  Prim2SF x = binary_round_aux prec emax false m e l -> (x <? 0) = false.
Proof.
  rewrite ltb_zero_SF. intros ->. unfold binary_round_aux.
  destruct (shr_fexp prec emax m e l) as [mrs e1].
  destruct (shr_fexp prec emax _ e1 loc_Exact) as [mrs2 e2].
  destruct (shr_m mrs2); try reflexivity.
  destruct (e2 <=? emax - prec)%Z; reflexivity.
Qed.

Lemma sqrt_not_neg (x : float) : (sqrt x <? 0) = false.
Proof.
  destruct (Prim2SF x) as [s | [] | | [] m e] eqn:E;
    try (rewrite ltb_zero_SF, sqrt_spec, E; reflexivity).
  pose proof (sqrt_spec x) as H. rewrite E in H.
  unfold SF64sqrt in H. cbn [SFsqrt] in H.
  destruct (SFsqrt_core_binary prec emax (Z.pos m) e) as [[mz ez] lz].
  exact (round_aux_not_neg _ _ _ _ H).
Qed.

Lemma mul_not_neg (a b : float) :
  (a <? 0) = false -> (b <? 0) = false -> (a * b <? 0) = false.
Proof.
  intros Ha Hb. rewrite ltb_zero_SF in Ha, Hb.
  pose proof (mul_spec a b) as H. unfold SF64mul in H.
  destruct (Prim2SF a) as [sa | [] | | [] ma ea];
    destruct (Prim2SF b) as [sb | [] | | [] mb eb];
    try discriminate Ha; try discriminate Hb; cbn [SFmul xorb] in H;
    try (rewrite ltb_zero_SF, H; reflexivity).
  exact (round_aux_not_neg _ _ _ _ H).
Qed.

Lemma math_1_returns (func : float -> float) (x r : float) :
  math_1 func x = Ok r -> r = func x.
Proof.
  unfold math_1.
  destruct (is_nan (func x) && negb (is_nan x)); [discriminate|].
  destruct (is_infinity (func x) && is_finite x); [discriminate|].
  intros H. injection H as <-. reflexivity.
Qed.

Lemma distance_not_neg (p q : Point) (r : float) :
  distance p q = Ok r -> (r <? 0) = false.
Proof.
  unfold distance.
  destruct (pow_2 (fst p - fst q)) as [dx2 | e]; [|discriminate].
  destruct (pow_2 (snd p - snd q)) as [dy2 | e]; [|discriminate].
  cbn [bind]. intros H. apply math_1_returns in H. subst r.
  apply sqrt_not_neg.
Qed.

(** A power [**(1/3)] of a float that is not below zero is a float. *)
Lemma pow_third_float (P : float) (v : pynum) :
  (P <? 0) = false -> pow_third P = Ok v -> exists G, v = PyFloat G.
Proof.
  intros HP. unfold pow_third. rewrite HP.
  destruct (is_nan P); [intros H; injection H as <-; eauto|].
  destruct (is_infinity P); [intros H; injection H as <-; eauto|].
  destruct (P =? 0); [intros H; injection H as <-; eauto|].
  destruct (P =? 1); [intros H; injection H as <-; eauto|].
  destruct (checked_pow P one_third) as [x | e]; [|discriminate].
  cbn [bind]. intros H. injection H as <-. eauto.
Qed.



(** * Capacitance tab *)

(** The capacitance tab after the geometry. *)
Lemma computeCapacitance_eval
    (sys : SystemType) (radius_mm_c height_m length_km_c g D : float) :
  capacitance_geometry sys height_m = Ok (PyFloat g, D) ->
  computeCapacitance sys radius_mm_c height_m length_km_c
  = let r := radius_mm_c / 1000 in
    if r =? 0 then Raise ZeroDivisionError
    else l <- math_log (D / r) ;;
         if l =? 0 then Raise ZeroDivisionError
         else let per_m := 2 * math_pi * EPSILON_0 / l in
              Ok (mkCapacitance g D per_m (per_m * 1000)
                                (per_m * (length_km_c * 1000))).
Proof.
  intros H. unfold computeCapacitance. rewrite H. cbv zeta.
  cbn [bind fst snd]. unfold py_div.
  destruct (radius_mm_c / 1000 =? 0); [reflexivity|]. cbn [bind].
  destruct (math_log _) as [l | e]; [|reflexivity]. cbn [bind].
  destruct (l =? 0); reflexivity.
Qed.

Lemma single_phase_geometry_inv (s h D : float) (v : pynum) :
  capacitance_geometry (SinglePhase s) h = Ok (v, D) ->
  exists s2 h2,
    pow_2 s = Ok s2 /\ pow_2 (2 * h) = Ok h2
    /\ v = PyFloat s /\ D = sqrt (s2 + h2).
Proof.
  cbn [capacitance_geometry].
  destruct (pow_2 s) as [s2 | e]; [|discriminate].
  destruct (pow_2 (2 * h)) as [h2 | e]; [|discriminate].
  cbn [bind].
  destruct (math_sqrt (s2 + h2)) as [d | e] eqn:E; [|discriminate].
  cbn [bind]. intros H. injection H as <- <-.
  exists s2, h2. repeat split. exact (math_1_returns _ _ _ E).
Qed.

(** C4 (as amended).  The capacitance tab does not check the height.  In
    three-phase mode the height widget is not read: the outcome is the
    same for every height.  In single-phase mode the height enters only
    through [(2 * height) ** 2]: the heights [h] and [-h] have the same
    outcome, and at height 0 the effective distance is the square root of
    [spacing ** 2 + 0.0]. *)
Theorem computeCapacitance_height_unchecked :
  (forall pA pB pC radius_mm_c height_m height_m' length_km_c,
     computeCapacitance (ThreePhase pA pB pC) radius_mm_c height_m length_km_c
     = computeCapacitance (ThreePhase pA pB pC) radius_mm_c height_m'
                          length_km_c)
  /\ (forall spacing_c radius_mm_c height_m length_km_c,
        computeCapacitance (SinglePhase spacing_c) radius_mm_c (- height_m)
                           length_km_c
        = computeCapacitance (SinglePhase spacing_c) radius_mm_c height_m
                             length_km_c)
  /\ (forall spacing_c,
        capacitance_geometry (SinglePhase spacing_c) 0
        = s2 <- pow_2 spacing_c ;;
          d <- math_sqrt (s2 + 0) ;;
          Ok (PyFloat spacing_c, d)).
Proof.
  split; [|split].
  - reflexivity.
  - intros spacing_c radius_mm_c height_m length_km_c.
    unfold computeCapacitance. cbn [capacitance_geometry].
    rewrite (pow_2_abs_eq (2 * - height_m) (2 * height_m))
      by apply abs_mul_opp_r.
    reflexivity.
  - intros spacing_c. cbn [capacitance_geometry].
    destruct (pow_2 spacing_c); reflexivity.
Qed.

(** C8 (as amended).  Every result the capacitance tab returns in
    single-phase mode reports [GMD = s], has the effective distance
    [D_eq = sqrt (s ** 2 + (2 * h) ** 2)], the capacitance per metre
    [(2 * pi * 8.854e-12) / l] where [l] is [math.log (D_eq / r)] (the C
    library's logarithm when the quotient is finite), the capacitance per
    km that value times 1000 and the total that value times the length in
    metres, each operation being the binary64 one.  (A result is not
    returned for every input with positive spacing, height and radius,
    see the counterexample.) *)
Theorem computeCapacitance_single_phase
    (spacing_c radius_mm_c height_m length_km_c : float)
    (res : CapacitanceResult) :
  computeCapacitance (SinglePhase spacing_c) radius_mm_c height_m length_km_c
  = Ok res ->
  let r := radius_mm_c / 1000 in
  exists s2 h2 l,
    pow_2 spacing_c = Ok s2 /\ pow_2 (2 * height_m) = Ok h2
    /\ C_GMD res = spacing_c
    /\ D_eq res = sqrt (s2 + h2)
    /\ math_log (D_eq res / r) = Ok l
    /\ (is_finite (D_eq res / r) = true -> l = libm_log (D_eq res / r))
    /\ C_per_m res = 2 * math_pi * 8.854e-12 / l
    /\ C_per_km res = C_per_m res * 1000
    /\ C_total res = C_per_m res * (length_km_c * 1000).
Proof.
  intros H r.
  destruct (capacitance_geometry (SinglePhase spacing_c) height_m)
    as [[v D] | e] eqn:Hgeo.
  - destruct (single_phase_geometry_inv _ _ _ _ Hgeo)
      as (s2 & h2 & Hs & Hh & -> & HD).
    rewrite (computeCapacitance_eval _ _ _ _ _ _ Hgeo) in H. cbv zeta in H.
    fold r in H.
    destruct (r =? 0); [discriminate H|].
    destruct (math_log (D / r)) as [l | e] eqn:Hl; [|discriminate H].
    cbn [bind] in H. destruct (l =? 0); [discriminate H|].
    injection H as <-. cbn [C_GMD D_eq C_per_m C_per_km C_total].
    exists s2, h2, l. repeat split; try assumption.
    intros Hf. exact (proj2 (proj2 (math_log_returns _ _ Hl) Hf)).
  - unfold computeCapacitance in H. rewrite Hgeo in H. discriminate H.
Qed.

(** * Further properties of the tabs *)

(** X1.  The resistance tab raises exactly when one of its two divisors,
    [T1 + theta] or the area in square metres [area_mm2 * 1e-6], is a
    zero float (which includes an area so small that the product
    underflows), and then it raises [ZeroDivisionError]. *)
Theorem computeResistance_raises_iff
    (m : Material) (rho1 area_mm2 length_km temp1 temp2 : float) :
  let out := computeResistance m rho1 area_mm2 length_km temp1 temp2 in
  (raises out <->
     (temp1 + TEMP_CONST m =? 0) = true \/ (area_mm2 * 1e-6 =? 0) = true)
  /\ (forall e, out = Raise e -> e = ZeroDivisionError).
Proof.
  intros out. unfold out. rewrite computeResistance_eval.
  destruct (temp1 + TEMP_CONST m =? 0).
  - split; [split; [auto | intros _; eexists; reflexivity]|].
    intros e H. injection H as <-. reflexivity.
  - destruct (area_mm2 * 1e-6 =? 0).
    + split; [split; [auto | intros _; eexists; reflexivity]|].
      intros e H. injection H as <-. reflexivity.
    + split; [split|].
      * intros [e He]. discriminate He.
      * intros [H | H]; discriminate H.
      * intros e H. discriminate H.
Qed.

(** X2.  The distance of two positions is the same in both directions,
    bit for bit and exception for exception, and a distance that is
    returned is never below zero. *)
Theorem distance_symmetric_not_negative (p q : Point) :
  distance p q = distance q p
  /\ (forall r, distance p q = Ok r -> (r <? 0) = false).
Proof.
  split; [apply distance_sym | intros r; apply distance_not_neg].
Qed.

(** X3.  Three-phase capacitance with a conductor below the ground: when
    the binary64 product of the three image distances [2 * y] is negative
    and finite, its power [**(1/3)] is a complex number and line 193
    raises [TypeError]. *)
Theorem three_phase_negative_image_product
    (pA pB pC : Point) (radius_mm_c height_m length_km_c G : float) :
  GMD3 pA pB pC = Ok (PyFloat G) ->
  let P := 2 * snd pA * (2 * snd pB) * (2 * snd pC) in
  (P <? 0) = true -> is_infinity P = false ->
  computeCapacitance (ThreePhase pA pB pC) radius_mm_c height_m length_km_c
  = Raise TypeError.
Proof.
  intros HG P Hneg Hinf.
  assert (HP : pow_third P = Ok PyComplex).
  { unfold pow_third. rewrite Hinf, Hneg.
    rewrite ltb_zero_SF in Hneg. rewrite is_nan_SF, eqb_zero_SF.
    destruct (Prim2SF P) as [s | s | | s m e]; try discriminate Hneg;
      reflexivity. }
  unfold computeCapacitance. cbn [capacitance_geometry].
  rewrite HG. cbv zeta. cbn [bind]. fold P. rewrite HP. reflexivity.
Qed.

(** X4.  The pole of the capacitance: when the effective distance equals
    the radius in metres, a finite non-zero float, the quotient is exactly
    [1.0], and with a C library whose [log 1.0] is [0.0] line 198 raises
    [ZeroDivisionError]. *)
Theorem capacitance_pole_zero_division
    (sys : SystemType) (radius_mm_c height_m length_km_c g D : float) :
  capacitance_geometry sys height_m = Ok (PyFloat g, D) ->
  D = radius_mm_c / 1000 -> is_finite D = true -> (D =? 0) = false ->
  libm_log 1 = 0 ->
  computeCapacitance sys radius_mm_c height_m length_km_c
  = Raise ZeroDivisionError.
Proof.
  intros Hgeo HD Hf Hz Hlog.
  rewrite (computeCapacitance_eval _ _ _ _ _ _ Hgeo). cbv zeta.
  rewrite <- HD, Hz, (div_self _ Hf Hz).
  rewrite math_log_pos by (try reflexivity; rewrite Hlog; reflexivity).
  cbn [bind]. rewrite Hlog. reflexivity.
Qed.

Lemma pow_2_raises (x : float) (e : PyError) :
  pow_2 x = Raise e -> e = OverflowError.
Proof.
  unfold pow_2, checked_pow.
  destruct (is_nan x); [discriminate|].
  destruct (is_infinity x); [discriminate|].
  destruct (x =? 0); [discriminate|]. cbv zeta.
  destruct (_ =? 1); [discriminate|].
  destruct (is_infinity _); [|discriminate].
  intros H. injection H as <-. reflexivity.
Qed.

Lemma math_1_raises (func : float -> float) (x : float) (e : PyError) :
  math_1 func x = Raise e -> e = ValueError.
Proof.
  unfold math_1.
  destruct (is_nan (func x) && negb (is_nan x));
    [intros H; injection H as <-; reflexivity|].
  destruct (is_infinity (func x) && is_finite x);
    [intros H; injection H as <-; reflexivity|].
  discriminate.
Qed.

Lemma distance_raises (p q : Point) (e : PyError) :
  distance p q = Raise e -> e = OverflowError \/ e = ValueError.
Proof.
  unfold distance.
  destruct (pow_2 (fst p - fst q)) as [dx2 | e1] eqn:E1.
  - destruct (pow_2 (snd p - snd q)) as [dy2 | e2] eqn:E2; cbn [bind].
    + intros H. right. exact (math_1_raises _ _ _ H).
    + intros H. injection H as <-. left. exact (pow_2_raises _ _ E2).
  - cbn [bind]. intros H. injection H as <-. left.
    exact (pow_2_raises _ _ E1).
Qed.

Lemma pow_third_raises (P : float) (e : PyError) :
  pow_third P = Raise e -> e = OverflowError.
Proof.
  unfold pow_third, checked_pow.
  destruct (is_nan P); [discriminate|].
  destruct (is_infinity P); [discriminate|].
  destruct (P =? 0); [discriminate|].
  destruct (P <? 0); [discriminate|].
  destruct (P =? 1); [discriminate|].
  destruct (is_infinity _); cbn [bind]; [|discriminate].
  intros H. injection H as <-. reflexivity.
Qed.

(** The GMD of three positions is a float, or the computation raises
    [OverflowError] or [ValueError]. *)
Lemma GMD3_outcome (pA pB pC : Point) :
  (exists G, GMD3 pA pB pC = Ok (PyFloat G))
  \/ GMD3 pA pB pC = Raise OverflowError
  \/ GMD3 pA pB pC = Raise ValueError.
Proof.
  unfold GMD3.
  destruct (pairwiseDistances pA pB pC) as [d | e] eqn:Hd.
  - destruct (pairwiseDistances_inv _ _ _ _ Hd) as (Hab & Hbc & Hca).
    cbn [bind].
    assert (NP : (Dab d * Dbc d * Dca d <? 0) = false).
    { apply mul_not_neg; [apply mul_not_neg|];
        eapply distance_not_neg; eassumption. }
    destruct (pow_third (Dab d * Dbc d * Dca d)) as [v | e] eqn:HP.
    + left. destruct (pow_third_float _ _ NP HP) as [G ->]. eauto.
    + right. left. apply pow_third_raises in HP. subst e. reflexivity.
  - right. cbn [bind].
    assert (He : e = OverflowError \/ e = ValueError).
    { unfold pairwiseDistances in Hd.
      destruct (distance pA pB) as [ab | e1] eqn:E1;
        [|injection Hd as <-; exact (distance_raises _ _ _ E1)].
      destruct (distance pB pC) as [bc | e2] eqn:E2;
        [|injection Hd as <-; exact (distance_raises _ _ _ E2)].
      destruct (distance pC pA) as [ca | e3] eqn:E3;
        [discriminate Hd|injection Hd as <-; exact (distance_raises _ _ _ E3)]. }
    destruct He as [-> | ->]; auto.
Qed.

(** X5.  The inductance tab never raises [TypeError].  It returns, or it
    raises [ZeroDivisionError] (line 133, a zero GMR), [ValueError]
    ([math.log] or [math.sqrt] outside its domain) or [OverflowError]
    ([**]); the GMD it takes the logarithm of is always a float, because
    the product of the three distances is never negative. *)
Theorem computeInductance_outcomes
    (sys : SystemType) (radius_mm user_gmr length_km : float) :
  let out := computeInductance sys radius_mm user_gmr length_km in
  returns out \/ out = Raise ZeroDivisionError \/ out = Raise ValueError
  \/ out = Raise OverflowError.
Proof.
  intros out. unfold out.
  assert (HG : (exists G, inductance_GMD sys = Ok (PyFloat G))
               \/ inductance_GMD sys = Raise OverflowError
               \/ inductance_GMD sys = Raise ValueError).
  { destruct sys as [s | pA pB pC]; [left; eexists; reflexivity|].
    apply GMD3_outcome. }
  destruct HG as [[G HG] | [HG | HG]].
  - rewrite (computeInductance_eval _ _ _ _ _ HG). cbv zeta.
    destruct (_ =? 0); [auto|].
    destruct (math_log _) as [l | e] eqn:Hl; cbn [bind].
    + left. eexists. reflexivity.
    + apply math_1_raises in Hl. subst e. auto.
  - unfold computeInductance. rewrite HG. cbv zeta. cbn [bind]. auto.
  - unfold computeInductance. rewrite HG. cbv zeta. cbn [bind]. auto.
Qed.

(** ** Results at given values of the C library *)

Lemma computeInductance_returns
    (sys : SystemType) (radius_mm user_gmr length_km G : float) :
  inductance_GMD sys = Ok (PyFloat G) ->
  let g := resolve_gmr (radius_mm / 1000) user_gmr in
  let l := libm_log (G / g) in
  let per_m := MU_0 / (2 * math_pi) * l in
  (g =? 0) = false -> is_finite (G / g) = true -> (0 <? G / g) = true ->
  is_finite l = true ->
  computeInductance sys radius_mm user_gmr length_km
  = Ok (mkInductance g G per_m (per_m * 1000) (per_m * (length_km * 1000))).
Proof.
  intros HG g l per_m Hg Hf Hp Hl.
  rewrite (computeInductance_eval _ _ _ _ _ HG). cbv zeta. fold g.
  rewrite Hg, (math_log_pos _ Hf Hp Hl). reflexivity.
Qed.

Lemma computeCapacitance_returns
    (sys : SystemType) (radius_mm_c height_m length_km_c g D : float) :
  capacitance_geometry sys height_m = Ok (PyFloat g, D) ->
  let r := radius_mm_c / 1000 in
  let l := libm_log (D / r) in
  let per_m := 2 * math_pi * EPSILON_0 / l in
  (r =? 0) = false -> is_finite (D / r) = true -> (0 <? D / r) = true ->
  is_finite l = true -> (l =? 0) = false ->
  computeCapacitance sys radius_mm_c height_m length_km_c
  = Ok (mkCapacitance g D per_m (per_m * 1000)
                      (per_m * (length_km_c * 1000))).
Proof.
  intros Hgeo r l per_m Hr Hf Hp Hl Hz.
  rewrite (computeCapacitance_eval _ _ _ _ _ _ Hgeo). cbv zeta. fold r.
  rewrite Hr, (math_log_pos _ Hf Hp Hl). cbn [bind]. fold l.
  rewrite Hz. reflexivity.
Qed.

Lemma checked_pow_value (x y r : float) :
  libm_pow x y = r -> is_infinity r = false -> checked_pow x y = Ok r.
Proof. intros H Hr. unfold checked_pow. rewrite H, Hr. reflexivity. Qed.

Lemma checked_pow_overflow (x y : float) :
  libm_pow x y = infinity -> checked_pow x y = Raise OverflowError.
Proof. intros H. unfold checked_pow. rewrite H. reflexivity. Qed.

End Libm.

(** * Runs of the tabs

    The statements below are closed: where a tab reaches the C library
    they hold for every [pow] and [log] that take the stated values at
    the stated points. *)

Lemma computeInductance_failures_witness :
  exists G, forall pow log,
    inductance_GMD pow (SinglePhase 2) = Ok (PyFloat G)
    /\ computeInductance pow log (SinglePhase 2) 0 0 10
       = Raise ZeroDivisionError.
Proof.
  exists 2. intros pow log. split; [reflexivity|].
  exact (proj1 (computeInductance_failures pow log (SinglePhase 2) 0 0 10 2
                  eq_refl) eq_refl).
Defined.

(** C3, counterexample.  Single-phase, spacing 2 m and GMR 2 m, so that
    GMD = GMR: with [log 1.0 = 0.0] the tab returns the inductances 0, 0
    and 0.  And with spacing -2 m, radius -10 mm and the automatic GMR,
    so that GMD and GMR are both negative, the tab returns whenever the
    logarithm of the quotient 256.8 is finite. *)
Lemma computeInductance_equal_GMD_GMR_returns :
  (forall pow log, log 1 = 0 ->
     computeInductance pow log (SinglePhase 2) 10 2 10
     = Ok (mkInductance 2 2 0 0 0))
  /\ (-2 <=? 0) = true
  /\ (0.7788 * (-10 / 1000) <=? 0) = true
  /\ (forall pow log, is_finite (log 256.80534155110422) = true ->
        exists res,
          computeInductance pow log (SinglePhase (-2)) (-10) 0 10 = Ok res
          /\ L_GMD res = -2 /\ gmr res = -0.0077880000000000007).
Proof.
  split; [|split; [reflexivity|split; [reflexivity|]]].
  - intros pow log Hlog.
    assert (Hf : is_finite (log 1) = true) by (rewrite Hlog; reflexivity).
    rewrite (computeInductance_returns pow log (SinglePhase 2) 10 2 10 2
               eq_refl eq_refl eq_refl eq_refl Hf).
    vm_compute. rewrite Hlog. reflexivity.
  - intros pow log Hf.
    rewrite (computeInductance_returns pow log (SinglePhase (-2)) (-10) 0 10
               (-2) eq_refl eq_refl eq_refl eq_refl Hf).
    eexists. split; [reflexivity|]. split; reflexivity.
Qed.

(** C4, counterexample.  Height 0.  Single-phase with spacing 2 m and
    radius 10 mm: the effective distance is 2 m and the tab returns a
    capacitance whenever [2.0 ** 2] is [4.0] and the logarithm of the
    quotient 200 is finite and not zero.  Three-phase with the default
    layout: the tab returns the same result as for any other height,
    with the effective distance 12.295955676049939 m. *)
Lemma computeCapacitance_zero_height_returns :
  (0 <=? 0) = true
  /\ (forall pow log,
        pow 2 2 = 4 ->
        is_finite (log 200) = true -> (log 200 =? 0) = false ->
        computeCapacitance pow log (SinglePhase 2) 10 0 10
        = Ok (mkCapacitance 2 2
                (2 * math_pi * EPSILON_0 / log 200)
                (2 * math_pi * EPSILON_0 / log 200 * 1000)
                (2 * math_pi * EPSILON_0 / log 200 * 10000)))
  /\ (forall pow log,
        pow 6 2 = 36 -> pow 12 2 = 144 ->
        pow 432 one_third = 7.559526299369238 ->
        pow 8000 one_third = 19.999999999999996 ->
        is_finite (log 1229.5955676049939) = true ->
        (log 1229.5955676049939 =? 0) = false ->
        exists res,
          computeCapacitance pow log (ThreePhase (0, 10) (6, 10) (12, 10))
                             10 0 10 = Ok res
          /\ C_GMD res = 7.559526299369238
          /\ D_eq res = 12.295955676049939).
Proof.
  split; [reflexivity|]. split.
  - intros pow log Hp Hf Hz.
    assert (Hgeo : capacitance_geometry pow (SinglePhase 2) 0
                   = Ok (PyFloat 2, 2)).
    { vm_compute. rewrite Hp. reflexivity. }
    rewrite (computeCapacitance_returns pow log _ 10 _ 10 _ _ Hgeo
               eq_refl eq_refl eq_refl Hf Hz).
    reflexivity.
  - intros pow log H6 H12 H432 H8000 Hf Hz.
    assert (Hgeo : capacitance_geometry pow (ThreePhase (0, 10) (6, 10) (12, 10))
                     0
                   = Ok (PyFloat 7.559526299369238, 12.295955676049939)).
    { vm_compute in H432, H8000. vm_compute. rewrite H6, H12. vm_compute.
      rewrite H432, H8000. reflexivity. }
    rewrite (computeCapacitance_returns pow log _ 10 _ 10 _ _ Hgeo
               eq_refl eq_refl eq_refl Hf Hz).
    eexists. split; [reflexivity|]. split; reflexivity.
Qed.

(** C5, counterexample.  Radius 2.1 mm.  The code's automatic GMR is the
    float 0.0016354800000000004, while the product 0.7788 x 0.0021 is
    0.00163548, another float; a run with that GMR returns another
    result (whenever the two logarithms are finite). *)
Lemma gmr_decimal_product_differs :
  0.7788 * (2.1 / 1000) = 0.0016354800000000004
  /\ (0.0016354800000000004 =? 0.00163548) = false
  /\ (forall pow log,
        is_finite (log 1222.8825788147819) = true ->
        is_finite (log 1222.8825788147822) = true ->
        exists res res',
          computeInductance pow log (SinglePhase 2) 2.1 0 10 = Ok res
          /\ computeInductance pow log (SinglePhase 2) 2.1 0.00163548 10
             = Ok res'
          /\ gmr res = 0.0016354800000000004
          /\ gmr res' = 0.00163548
          /\ res <> res').
Proof.
  split; [reflexivity|]. split; [reflexivity|].
  intros pow log Hf Hf'.
  rewrite (computeInductance_returns pow log (SinglePhase 2) 2.1 0 10 2
             eq_refl eq_refl eq_refl eq_refl Hf).
  rewrite (computeInductance_returns pow log (SinglePhase 2) 2.1 0.00163548 10
             2 eq_refl eq_refl eq_refl eq_refl Hf').
  eexists. eexists. split; [reflexivity|]. split; [reflexivity|].
  split; [reflexivity|]. split; [reflexivity|].
  intros E. apply (f_equal gmr) in E. cbn [gmr] in E.
  assert (N : (resolve_gmr (2.1 / 1000) 0 =? resolve_gmr (2.1 / 1000) 0.00163548)
              = false) by reflexivity.
  rewrite E in N. vm_compute in N. discriminate N.
Qed.

Lemma inductance_independent_of_radius_witness :
  (0 <? 0.01) = true
  /\ forall pow log,
       computeInductance pow log (SinglePhase 2) 10 0.01 10
       = computeInductance pow log (SinglePhase 2) 25 0.01 10.
Proof.
  split; [reflexivity|]. intros pow log.
  apply (inductance_independent_of_radius pow log (SinglePhase 2) 10 25 0.01 10).
  reflexivity.
Defined.



Lemma computeCapacitance_single_phase_witness :
  (0 <? 2) = true
  /\ forall pow log,
       pow 2 2 = 4 -> pow 20 2 = 400 ->
       is_finite (log 2009.975124224178) = true ->
       (log 2009.975124224178 =? 0) = false ->
       exists res,
         computeCapacitance pow log (SinglePhase 2) 10 10 10 = Ok res
         /\ C_GMD res = 2
         /\ D_eq res = 20.09975124224178
         /\ C_per_m res = 2 * math_pi * 8.854e-12 / log 2009.975124224178
         /\ C_per_km res = C_per_m res * 1000
         /\ C_total res = C_per_m res * (10 * 1000).
Proof.
  split; [reflexivity|]. intros pow log H2 H20 Hf Hz.
  assert (Hgeo : capacitance_geometry pow (SinglePhase 2) 10
                 = Ok (PyFloat 2, 20.09975124224178)).
  { vm_compute. rewrite H2. vm_compute. rewrite H20. reflexivity. }
  pose proof (computeCapacitance_returns pow log _ 10 _ 10 _ _ Hgeo
                eq_refl eq_refl eq_refl Hf Hz) as Hres.
  cbv zeta in Hres. eexists. split; [exact Hres|].
  destruct (computeCapacitance_single_phase pow log 2 10 10 10 _ Hres)
    as (s2 & h2 & l & Hs & Hh & HG & HD & Hl & Hlog & Hm & Hkm & Ht).
  split; [exact HG|]. split; [reflexivity|]. split; [reflexivity|].
  split; [exact Hkm | exact Ht].
Defined.

(** C8, counterexample.  Spacing 1 m, height 0.5 m and the positive
    radius 1e-322 mm: the effective distance is the square root of 2,
    above the radius, but the radius in metres underflows to 0.0 and the
    tab raises [ZeroDivisionError], whatever the C library.  And with
    spacing 1e200 m (height 10 m, radius 10 mm) the square overflows and
    the tab raises [OverflowError]. *)
Lemma computeCapacitance_single_phase_raises :
  (0 <? 1) = true /\ (0 <? 0.5) = true /\ (0 <? 1e-322) = true
  /\ (1e-322 <? sqrt (1 + 1)) = true
  /\ 1e-322 / 1000 = 0
  /\ (forall pow log,
        capacitance_geometry pow (SinglePhase 1) 0.5
        = Ok (PyFloat 1, sqrt (1 + 1))
        /\ computeCapacitance pow log (SinglePhase 1) 1e-322 0.5 10
           = Raise ZeroDivisionError)
  /\ (forall pow log,
        pow 1e200 2 = infinity ->
        computeCapacitance pow log (SinglePhase 1e200) 10 10 10
        = Raise OverflowError).
Proof.
  do 5 (split; [reflexivity|]). split.
  - intros pow log. split; reflexivity.
  - intros pow log H.
    assert (E : pow_2 pow 1e200 = Raise OverflowError).
    { transitivity (checked_pow pow 1e200 2); [reflexivity|].
      apply checked_pow_overflow, H. }
    unfold computeCapacitance. cbn [capacitance_geometry]. rewrite E.
    reflexivity.
Qed.

Lemma GMD3_swap_invariant_witness :
  exists d, forall pow log,
    pairwiseDistances pow (0, 0) (1, 0) (1, 1) = Ok d
    /\ pairwiseDistances pow (1, 1) (1, 0) (0, 0)
       = Ok (mkSpacings (Dbc d) (Dab d) (Dca d))
    /\ GMD3 pow (1, 1) (1, 0) (0, 0) = GMD3 pow (0, 0) (1, 0) (1, 1)
    /\ computeInductance pow log (ThreePhase (1, 1) (1, 0) (0, 0)) 10 0 10
       = computeInductance pow log (ThreePhase (0, 0) (1, 0) (1, 1)) 10 0 10.
Proof.
  exists (mkSpacings 1 1 (sqrt 2)). intros pow log.
  assert (Hd : pairwiseDistances pow (0, 0) (1, 0) (1, 1)
               = Ok (mkSpacings 1 1 (sqrt 2))) by reflexivity.
  split; [exact Hd|].
  destruct (GMD3_swap_invariant pow log (0, 0) (1, 0) (1, 1) _ Hd)
    as (H1 & H2 & H3).
  split; [exact H1|]. split; [exact H2 | apply H3].
Defined.

(** C9, counterexample.  A = (12, 6), B = (13, 0), C = (16, 7).  The
    distances are the square roots of 37, 58 and 17, and their product
    depends on the order of the factors: 191.00261778310789 for the
    labelling (A, B, C) and 191.00261778310787 for (B, A, C).  Where the
    powers [**(1/3)] of these two floats are 5.75899153053254 and
    5.758991530532539, the two labellings have different GMDs. *)
Lemma GMD3_relabelling_changes_result :
  sqrt (1 + 36) * sqrt (9 + 49) * sqrt (16 + 1) = 191.00261778310789
  /\ sqrt (1 + 36) * sqrt (16 + 1) * sqrt (9 + 49) = 191.00261778310787
  /\ forall pow,
       pow 6 2 = 36 -> pow 3 2 = 9 -> pow 7 2 = 49 -> pow 4 2 = 16 ->
       pow 191.00261778310789 one_third = 5.75899153053254 ->
       pow 191.00261778310787 one_third = 5.758991530532539 ->
       GMD3 pow (12, 6) (13, 0) (16, 7) = Ok (PyFloat 5.75899153053254)
       /\ GMD3 pow (13, 0) (12, 6) (16, 7) = Ok (PyFloat 5.758991530532539)
       /\ GMD3 pow (13, 0) (12, 6) (16, 7) <> GMD3 pow (12, 6) (13, 0) (16, 7).
Proof.
  split; [reflexivity|]. split; [reflexivity|].
  intros pow H6 H3 H7 H4 HP HP'.
  vm_compute in HP, HP'.
  assert (E : GMD3 pow (12, 6) (13, 0) (16, 7) = Ok (PyFloat 5.75899153053254)).
  { vm_compute. rewrite H6. vm_compute. rewrite H3. vm_compute. rewrite H7.
    vm_compute. rewrite H4. vm_compute. rewrite HP. reflexivity. }
  assert (E' : GMD3 pow (13, 0) (12, 6) (16, 7)
               = Ok (PyFloat 5.758991530532539)).
  { vm_compute. rewrite H6. vm_compute. rewrite H4. vm_compute. rewrite H3.
    vm_compute. rewrite H7. vm_compute. rewrite HP'. reflexivity. }
  split; [exact E|]. split; [exact E'|].
  rewrite E, E'. intros H.
  apply (f_equal (fun o => match o with Ok (PyFloat x) => x | _ => 0 end)) in H.
  cbv beta iota in H.
  assert (N : (5.758991530532539 =? 5.75899153053254) = false) by reflexivity.
  rewrite H in N. vm_compute in N. discriminate N.
Qed.

Lemma three_phase_negative_image_product_witness :
  (2 * 0.5 * (2 * 0.5) * (2 * -0.5) <? 0) = true
  /\ forall pow log,
       is_infinity (pow (sqrt 2) one_third) = false ->
       computeCapacitance pow log (ThreePhase (0, 0.5) (1, 0.5) (1, -0.5))
                          10 10 10
       = Raise TypeError.
Proof.
  split; [reflexivity|]. intros pow log Hp.
  assert (HG : GMD3 pow (0, 0.5) (1, 0.5) (1, -0.5)
               = Ok (PyFloat (pow (sqrt 2) one_third))).
  { transitivity (x <- checked_pow pow (sqrt 2) one_third ;; Ok (PyFloat x));
      [reflexivity|].
    rewrite (checked_pow_value pow _ _ _ eq_refl Hp). reflexivity. }
  apply (three_phase_negative_image_product pow log _ _ _ 10 10 10 _ HG);
    reflexivity.
Defined.

Lemma capacitance_pole_zero_division_witness :
  1000 / 1000 = sqrt (1 + 0)
  /\ forall pow log,
       log 1 = 0 ->
       computeCapacitance pow log (SinglePhase 1) 1000 0 10
       = Raise ZeroDivisionError.
Proof.
  split; [reflexivity|]. intros pow log Hlog.
  apply (capacitance_pole_zero_division pow log (SinglePhase 1) 1000 0 10 1 1);
    try reflexivity.
  exact Hlog.
Defined.
